(** * EnchantNetCore: the JNI bridge over the EasyTier native library

    A shallow embedding of [src/main/cpp/enchant_net.cpp] (the seven
    [NativeBridge] entry points) over the C interface declared in
    [src/main/cpp/easytier_libs/easytier.h].

    - The native library is an interface: a type class [EasyTier] whose
      methods are the seven functions of the header, acting on an abstract
      library state.  Every theorem quantifies over all implementations.
    - The wrapper runs in a small monad: state passing over the library
      state, a log of every library call and JNI call in program order, and
      an [Undefined] outcome for C++ undefined behaviour (indexing a
      [std::vector] out of range).
    - The JVM is modelled in its non-exceptional behaviour: allocations
      succeed, [GetStringUTFChars]/[NewStringUTF] carry the characters of a
      string unchanged.
    - C [int], [int32_t], [jint] and [jsize] are the same 32-bit type on the
      target, so status codes flow without conversion; the two explicit
      [(size_t)] casts are written out as reduction modulo 2^64. *)

From Stdlib Require Import ZArith Lia.
From stdpp Require Import base option list strings.

Local Open Scope Z_scope.

(** ** C-side data *)

(** What a non-null [const char*] points to.  The wrapper handles pointers
    of two origins: character buffers lent by the JVM
    ([GetStringUTFChars]) and strings allocated by the library, which the
    receiver has to give back to [free_string].  A library string has an
    address (its identity) and its characters. *)
Inductive c_str : Type :=
  | JvmChars (chars : string)
  | LibString (addr : positive) (chars : string).

(** [const char*]: [None] is [nullptr]. *)
Abbreviation const_char_ptr := (option c_str).

Definition c_chars (p : c_str) : string :=
  match p with
  | JvmChars chars => chars
  | LibString _ chars => chars
  end.

(** [struct KeyValuePair { const char* key; const char* value; }] *)
Record KeyValuePair : Type := mkKeyValuePair {
  key : const_char_ptr;
  value : const_char_ptr;
}.

(** A value-initialised [KeyValuePair]: both pointers null. *)
Definition null_pair : KeyValuePair := {| key := None; value := None |}.

(** [(size_t)x] on a 64-bit target. *)
Definition size_t_of (x : Z) : Z := x mod 2 ^ 64.

(** The values of a [jint] / [jsize]. *)
Definition jint_range (x : Z) : Prop := - 2 ^ 31 <= x < 2 ^ 31.

(** ** The native library: [easytier.h] *)

(** One method per function of the header, each a transition of the
    library state [L].
    - [retain_network_instance names count]: [names] is [None] for a null
      pointer, otherwise the array it points to.
    - [collect_network_infos infos max_length]: receives the caller's
      buffer, returns the count and the records it stored from [infos[0]]
      on (see [store_records]).
    - [get_error_msg out]: receives the current value of [*out] and returns
      its value after the call. *)
Class EasyTier (L : Type) : Type := {
  set_tun_fd : const_char_ptr -> Z -> L -> Z * L;
  parse_config : const_char_ptr -> L -> Z * L;
  run_network_instance : const_char_ptr -> L -> Z * L;
  retain_network_instance : option (list const_char_ptr) -> Z -> L -> Z * L;
  collect_network_infos : list KeyValuePair -> Z -> L -> Z * list KeyValuePair * L;
  get_error_msg : const_char_ptr -> L -> const_char_ptr * L;
  free_string : const_char_ptr -> L -> L;
}.

(** The callee sees the buffer as a raw pointer: it overwrites records from
    the start and cannot change the vector's size. *)
Definition store_records (written buf : list KeyValuePair) : list KeyValuePair :=
  take (length buf) (written ++ drop (length written) buf).

(** ** Java-side data *)

(** [jstring]: [None] is [null]; a Java string is its characters. *)
Abbreviation jstring := (option string).

(** Modelled from the spec: the Java class
    [org.fcl.enchantnetcore.easytier.NativeBridge$NetworkInfo] is not among
    the sources.  It is the spec's InfoRecord, a key/value pair of strings,
    and the wrapper builds it through the [(String, String)] constructor,
    taken to store its two arguments. *)
Record NetworkInfo : Type := mkNetworkInfo {
  info_key : jstring;
  info_value : jstring;
}.

(** The objects the wrapper holds local references to. *)
Inductive jobject : Type :=
  | JString (s : string)
  | JNetworkInfo (o : NetworkInfo).

(** ** Effects *)

Inductive jni_call : Type :=
  | J_GetStringUTFChars (s : string)
  | J_ReleaseStringUTFChars (s : jstring) (chars : c_str)
  | J_GetArrayLength
  | J_GetObjectArrayElement (i : Z)
  | J_DeleteLocalRef (o : jobject)
  | J_FindClass (name : string)
  | J_GetMethodID (cls name sig : string)
  | J_NewObjectArray (len : Z) (cls : string)
  | J_NewStringUTF (bytes : c_str)
  | J_NewObject (cls : string) (a1 a2 : jstring)
  | J_SetObjectArrayElement (i : Z) (item : NetworkInfo).

Inductive lib_call : Type :=
  | C_set_tun_fd (inst_name : const_char_ptr) (fd : Z)
  | C_parse_config (cfg_str : const_char_ptr)
  | C_run_network_instance (cfg_str : const_char_ptr)
  | C_retain_network_instance (names : option (list const_char_ptr)) (count : Z)
  | C_collect_network_infos (max_length : Z)
  | C_get_error_msg
  | C_free_string (s : const_char_ptr).

(** Operations of the host system on a descriptor.  No function of the
    wrapper issues one; they belong to the alphabet so that their absence
    from a run can be stated. *)
Inductive os_call : Type :=
  | O_close (fd : Z)
  | O_dup (fd : Z).

Inductive event : Type :=
  | Jni (c : jni_call)
  | Lib (c : lib_call)
  | Os (c : os_call).

(** The library calls of a run, in order. *)
Definition lib_calls (t : list event) : list lib_call :=
  omap (fun e => match e with Lib c => Some c | _ => None end) t.


(** The C strings an event reads. *)
Definition reads (e : event) : list c_str :=
  match e with
  | Jni (J_NewStringUTF p) => [p]
  | Lib (C_set_tun_fd p _) | Lib (C_parse_config p) | Lib (C_run_network_instance p) =>
      option_list p
  | Lib (C_retain_network_instance ps _) => omap id (default [] ps)
  | _ => []
  end.

(** The operations on descriptors of a run, in order. *)
Definition os_calls (t : list event) : list os_call :=
  omap (fun e => match e with Os c => Some c | _ => None end) t.

(** The C strings an event reads or gives back. *)
Definition touches (e : event) : list c_str :=
  match e with
  | Lib (C_free_string p) => option_list p
  | _ => reads e
  end.

(** No string is read or freed again after it was passed to
    [free_string]. *)
Fixpoint no_use_after_free (t : list event) : Prop :=
  match t with
  | [] => True
  | e :: t' =>
      match e with
      | Lib (C_free_string (Some p)) => p ∉ (t' ≫= touches)
      | _ => True
      end /\ no_use_after_free t'
  end.

(** ** The execution monad *)

Inductive outcome (A : Type) : Type :=
  | Done (a : A)
  | Undefined.
Arguments Done {A} a.
Arguments Undefined {A}.

Section Bridge.
Context {L : Type}.

(** A computation: from the library state to a result, the new library
    state and the events performed, or undefined behaviour. *)
Definition M (A : Type) : Type := L -> outcome (A * L * list event).

Definition ret {A} (a : A) : M A := fun s => Done (a, s, []).

Definition bind {A B} (m : M A) (k : A -> M B) : M B :=
  fun s =>
    match m s with
    | Done (a, s1, t1) =>
        match k a s1 with
        | Done (b, s2, t2) => Done (b, s2, t1 ++ t2)
        | Undefined => Undefined
        end
    | Undefined => Undefined
    end.

Definition undefined {A} : M A := fun _ => Undefined.

End Bridge.

Notation "'let*' x ':=' m 'in' k" := (bind m (fun x => k))
  (at level 10, x pattern, m at level 100, k at level 200).

(** ** The wrapper: [enchant_net.cpp] *)

(** [jobjectArray]: [None] is [null]; the elements may be [null]. *)
Abbreviation jobjectArray A := (option (list (option A))).

Abbreviation jclass := string.
Abbreviation jmethodID := (string * string)%type.

Definition NetworkInfo_class : jclass :=
  "org/fcl/enchantnetcore/easytier/NativeBridge$NetworkInfo".

Section Wrapper.
Context {L : Type} {lib : EasyTier L}.
Local Abbreviation M := (M (L := L)).

Definition jni {A} (c : jni_call) (a : A) : M A :=
  fun s => Done (a, s, [Jni c]).

Definition native {A} (c : lib_call) (f : L -> A * L) : M A :=
  fun s => let (a, s') := f s in Done (a, s', [Lib c]).

(** *** [JNIEnv] *)

Definition env_GetStringUTFChars (s : string) : M const_char_ptr :=
  jni (J_GetStringUTFChars s) (Some (JvmChars s)).

Definition env_ReleaseStringUTFChars (s : jstring) (chars : c_str) : M unit :=
  jni (J_ReleaseStringUTFChars s chars) tt.

Definition env_GetArrayLength (a : list jstring) : M Z :=
  jni J_GetArrayLength (Z.of_nat (length a)).

(** Out of range the JVM hands back [null]. *)
Definition env_GetObjectArrayElement (a : list jstring) (i : Z) : M jstring :=
  jni (J_GetObjectArrayElement i)
      (if i <? 0 then None else default None (a !! Z.to_nat i)).

Definition env_DeleteLocalRef (o : jobject) : M unit :=
  jni (J_DeleteLocalRef o) tt.

Definition env_FindClass (name : string) : M jclass :=
  jni (J_FindClass name) name.

Definition env_GetMethodID (cls : jclass) (name sig : string) : M jmethodID :=
  jni (J_GetMethodID cls name sig) (name, sig).

Definition env_NewObjectArray (len : Z) (cls : jclass)
  : M (list (option NetworkInfo)) :=
  jni (J_NewObjectArray len cls) (replicate (Z.to_nat len) None).

Definition env_NewStringUTF (bytes : c_str) : M jstring :=
  jni (J_NewStringUTF bytes) (Some (c_chars bytes)).

Definition env_NewObject (cls : jclass) (ctor : jmethodID) (a1 a2 : jstring)
  : M NetworkInfo :=
  jni (J_NewObject cls a1 a2) {| info_key := a1; info_value := a2 |}.

(** Out of range the JVM leaves the array as it is. *)
Definition env_SetObjectArrayElement
    (arr : list (option NetworkInfo)) (i : Z) (item : NetworkInfo)
  : M (list (option NetworkInfo)) :=
  jni (J_SetObjectArrayElement i item)
      (if i <? 0 then arr else <[Z.to_nat i := Some item]> arr).

(** *** Calls into the library *)

Definition call_set_tun_fd (inst_name : const_char_ptr) (fd : Z) : M Z :=
  native (C_set_tun_fd inst_name fd) (set_tun_fd inst_name fd).

Definition call_parse_config (cfg_str : const_char_ptr) : M Z :=
  native (C_parse_config cfg_str) (parse_config cfg_str).

Definition call_run_network_instance (cfg_str : const_char_ptr) : M Z :=
  native (C_run_network_instance cfg_str) (run_network_instance cfg_str).

Definition call_retain_network_instance
    (names : option (list const_char_ptr)) (count : Z) : M Z :=
  native (C_retain_network_instance names count)
         (retain_network_instance names count).

(** Returns the count and the buffer as the library left it. *)
Definition call_collect_network_infos (infos : list KeyValuePair) (max_length : Z)
  : M (Z * list KeyValuePair) :=
  native (C_collect_network_infos max_length)
         (fun s =>
            let '(count, written, s') := collect_network_infos infos max_length s in
            ((count, store_records written infos), s')).

Definition call_get_error_msg (out : const_char_ptr) : M const_char_ptr :=
  native C_get_error_msg (get_error_msg out).

Definition call_free_string (p : const_char_ptr) : M unit :=
  native (C_free_string p) (fun s => (tt, free_string p s)).

(** *** [std::vector] and the [for] loop *)

(** [v[i]]; undefined out of range. *)
Definition vec_at {A} (v : list A) (i : Z) : M A :=
  if i <? 0 then undefined
  else match v !! Z.to_nat i with
       | Some x => ret x
       | None => undefined
       end.

(** [v[i] = x]; undefined out of range. *)
Definition vec_set {A} (v : list A) (i : Z) (x : A) : M (list A) :=
  if (0 <=? i) && (i <? Z.of_nat (length v))
  then ret (<[Z.to_nat i := x]> v)
  else undefined.

Fixpoint for_iter {A} (iters : nat) (i : Z) (body : Z -> A -> M A) (a : A) : M A :=
  match iters with
  | O => ret a
  | S iters' => let* a' := body i a in for_iter iters' (i + 1) body a'
  end.

(** [for (int i = 0; i < n; ++i) body], threading the variables the body
    assigns. *)
Definition for_loop {A} (n : Z) (body : Z -> A -> M A) (a : A) : M A :=
  for_iter (Z.to_nat n) 0 body a.

(** *** The entry points *)

Definition Java_org_fcl_enchantnetcore_easytier_NativeBridge_parseConfig
    (cfg : jstring) : M Z :=
  let* c_cfg := match cfg with
                | Some s => env_GetStringUTFChars s
                | None => ret None
                end in
  let* r := call_parse_config c_cfg in
  let* _ := match c_cfg with
            | Some c => env_ReleaseStringUTFChars cfg c
            | None => ret tt
            end in
  ret r.

Definition Java_org_fcl_enchantnetcore_easytier_NativeBridge_runNetworkInstance
    (cfg : jstring) : M Z :=
  let* c_cfg := match cfg with
                | Some s => env_GetStringUTFChars s
                | None => ret None
                end in
  let* r := call_run_network_instance c_cfg in
  let* _ := match c_cfg with
            | Some c => env_ReleaseStringUTFChars cfg c
            | None => ret tt
            end in
  ret r.

Definition Java_org_fcl_enchantnetcore_easytier_NativeBridge_setTunFd
    (instName : jstring) (fd : Z) : M Z :=
  let* c_name := match instName with
                 | Some s => env_GetStringUTFChars s
                 | None => ret None
                 end in
  let* r := call_set_tun_fd c_name fd in
  let* _ := match c_name with
            | Some c => env_ReleaseStringUTFChars instName c
            | None => ret tt
            end in
  ret r.

(** The first loop of [retainNetworkInstance]: fetch element [i], keep the
    reference and its UTF characters.  The loop runs only for a non-null
    [names], whose elements are then the list under [Some]. *)
Definition marshal_name (names : jobjectArray string) (i : Z)
    (vs : list jstring * list const_char_ptr)
  : M (list jstring * list const_char_ptr) :=
  let (jnames, c_names) := vs in
  let* s := env_GetObjectArrayElement (default [] names) i in
  let* jnames := vec_set jnames i s in
  let* c := match s with
            | Some str => env_GetStringUTFChars str
            | None => ret None
            end in
  let* c_names := vec_set c_names i c in
  ret (jnames, c_names).

(** The second loop: give the characters back, drop the local reference. *)
Definition release_name (jnames : list jstring) (c_names : list const_char_ptr)
    (i : Z) (_ : unit) : M unit :=
  let* j := vec_at jnames i in
  let* _ := match j with
            | Some _ =>
                let* c := vec_at c_names i in
                match c with
                | Some chars => env_ReleaseStringUTFChars j chars
                | None => ret tt
                end
            | None => ret tt
            end in
  match j with
  | Some str => env_DeleteLocalRef (JString str)
  | None => ret tt
  end.

Definition Java_org_fcl_enchantnetcore_easytier_NativeBridge_retainNetworkInstance
    (names : jobjectArray string) : M Z :=
  let* n := match names with
            | Some a => env_GetArrayLength a
            | None => ret 0
            end in
  let jnames : list jstring := replicate (Z.to_nat n) None in
  let c_names : list const_char_ptr := replicate (Z.to_nat n) None in
  let* (jnames, c_names) := for_loop n (marshal_name names) (jnames, c_names) in
  let* r := call_retain_network_instance
              (if n =? 0 then None else Some c_names) (size_t_of n) in
  let* _ := for_loop n (release_name jnames c_names) tt in
  ret r.

(** [size_t cap = (maxLen > 0 ? (size_t)maxLen : 256)] *)
Definition cap (maxLen : Z) : Z :=
  if 0 <? maxLen then size_t_of maxLen else 256.

(** The body of the copy loop of [getNetworkInfos].  [buf] is not assigned
    in the loop, so [buf[i]] is read once. *)
Definition copy_record (buf : list KeyValuePair) (cls : jclass) (ctor : jmethodID)
    (i : Z) (arr : list (option NetworkInfo)) : M (list (option NetworkInfo)) :=
  let* r := vec_at buf i in
  let* jkey := match key r with
               | Some p => env_NewStringUTF p
               | None => ret None
               end in
  let* jval := match value r with
               | Some p => env_NewStringUTF p
               | None => ret None
               end in
  let* item := env_NewObject cls ctor jkey jval in
  let* arr := env_SetObjectArrayElement arr i item in
  let* _ := match key r with
            | Some _ => call_free_string (key r)
            | None => ret tt
            end in
  let* _ := match value r with
            | Some _ => call_free_string (value r)
            | None => ret tt
            end in
  let* _ := match jkey with
            | Some str => env_DeleteLocalRef (JString str)
            | None => ret tt
            end in
  let* _ := match jval with
            | Some str => env_DeleteLocalRef (JString str)
            | None => ret tt
            end in
  let* _ := env_DeleteLocalRef (JNetworkInfo item) in
  ret arr.

Definition Java_org_fcl_enchantnetcore_easytier_NativeBridge_getNetworkInfos
    (maxLen : Z) : M (jobjectArray NetworkInfo) :=
  let buf := replicate (Z.to_nat (cap maxLen)) null_pair in
  let* (count, buf) := call_collect_network_infos buf (Z.of_nat (length buf)) in
  if count <=? 0 then
    let* cls := env_FindClass NetworkInfo_class in
    let* arr := env_NewObjectArray 0 cls in
    ret (Some arr)
  else
    let* cls := env_FindClass NetworkInfo_class in
    let* ctor := env_GetMethodID cls "<init>" "(Ljava/lang/String;Ljava/lang/String;)V" in
    let* arr := env_NewObjectArray count cls in
    let* arr := for_loop count (copy_record buf cls ctor) arr in
    ret (Some arr).

Definition Java_org_fcl_enchantnetcore_easytier_NativeBridge_getLastError
  : M jstring :=
  let err : const_char_ptr := None in
  let* err := call_get_error_msg err in
  match err with
  | None => ret None
  | Some p =>
      let* jerr := env_NewStringUTF p in
      let* _ := call_free_string err in
      ret jerr
  end.

End Wrapper.

Abbreviation parseConfig := Java_org_fcl_enchantnetcore_easytier_NativeBridge_parseConfig.
Abbreviation runNetworkInstance := Java_org_fcl_enchantnetcore_easytier_NativeBridge_runNetworkInstance.
Abbreviation setTunFd := Java_org_fcl_enchantnetcore_easytier_NativeBridge_setTunFd.
Abbreviation retainNetworkInstance := Java_org_fcl_enchantnetcore_easytier_NativeBridge_retainNetworkInstance.
Abbreviation getNetworkInfos := Java_org_fcl_enchantnetcore_easytier_NativeBridge_getNetworkInfos.
Abbreviation getLastError := Java_org_fcl_enchantnetcore_easytier_NativeBridge_getLastError.

(** ** What the wrapper is specified against *)

(** The characters a Java string is marshalled to: [null] stays null. *)
Definition utf_chars (j : jstring) : const_char_ptr := JvmChars <$> j.

(** The [NetworkInfo] built from one record of the buffer. *)
Definition info_of (r : KeyValuePair) : NetworkInfo :=
  {| info_key := c_chars <$> key r; info_value := c_chars <$> value r |}.

(** The non-null pointers of a record, key first. *)
Definition owned (r : KeyValuePair) : list c_str :=
  option_list (key r) ++ option_list (value r).

(** The events of one round of the copy loop, for record [r] at index [i]. *)
Definition record_events (cls : jclass) (i : Z) (r : KeyValuePair) : list event :=
  ((fun p => Jni (J_NewStringUTF p)) <$> owned r)
  ++ [Jni (J_NewObject cls (info_key (info_of r)) (info_value (info_of r)));
      Jni (J_SetObjectArrayElement i (info_of r))]
  ++ ((fun p => Lib (C_free_string (Some p))) <$> owned r)
  ++ ((fun p => Jni (J_DeleteLocalRef (JString (c_chars p)))) <$> owned r)
  ++ [Jni (J_DeleteLocalRef (JNetworkInfo (info_of r)))].

Fixpoint copy_events (cls : jclass) (k : nat) (rs : list KeyValuePair) : list event :=
  match rs with
  | [] => []
  | r :: rs' => record_events cls (Z.of_nat k) r ++ copy_events cls (S k) rs'
  end.

(** The array after the records [rs] were copied to positions [k], [k+1], ... *)
Fixpoint copied (k : nat) (rs : list KeyValuePair) (arr : list (option NetworkInfo))
  : list (option NetworkInfo) :=
  match rs with
  | [] => arr
  | r :: rs' => copied (S k) rs' (<[k := Some (info_of r)]> arr)
  end.

Section Specification.
Context {L : Type} {lib : EasyTier L}.
Implicit Types s : L.

(** The library state after the strings [ps] were given back, in order. *)
Definition release_all (ps : list c_str) (s : L) : L :=
  foldl (fun s p => free_string (Some p) s) s ps.

(** The collector's answer to [getNetworkInfos maxLen] in state [s]: the
    count, the buffer as it is after the call, and the library state. *)
Definition collected (maxLen : Z) (s : L) : Z * list KeyValuePair * L :=
  let buf := replicate (Z.to_nat (cap maxLen)) null_pair in
  let '(count, written, s') :=
    collect_network_infos buf (Z.of_nat (length buf)) s in
  (count, store_records written buf, s').

Definition collected_count (maxLen : Z) (s : L) : Z := (collected maxLen s).1.1.
Definition collected_buf (maxLen : Z) (s : L) : list KeyValuePair :=
  (collected maxLen s).1.2.
Definition collected_state (maxLen : Z) (s : L) : L := (collected maxLen s).2.

(** The events [getNetworkInfos] performs before the copy loop. *)
Definition copy_prelude (maxLen count : Z) : list event :=
  [Lib (C_collect_network_infos (cap maxLen));
   Jni (J_FindClass NetworkInfo_class);
   Jni (J_GetMethodID NetworkInfo_class "<init>" "(Ljava/lang/String;Ljava/lang/String;)V");
   Jni (J_NewObjectArray count NetworkInfo_class)].

(** The events of a call whose collector reports nothing. *)
Definition empty_reply (maxLen : Z) : list event :=
  [Lib (C_collect_network_infos (cap maxLen));
   Jni (J_FindClass NetworkInfo_class);
   Jni (J_NewObjectArray 0 NetworkInfo_class)].

(** The records [getNetworkInfos] copies out: the first [count] of the
    buffer. *)
Definition copied_out (maxLen : Z) (s : L) : list KeyValuePair :=
  take (Z.to_nat (collected_count maxLen s)) (collected_buf maxLen s).

(** What a call of [getNetworkInfos] does, case by case on the count the
    collector reports. *)
Definition getNetworkInfos_outcome (maxLen : Z) (s : L)
  : outcome (jobjectArray NetworkInfo * L * list event) :=
  let count := collected_count maxLen s in
  if count <=? 0 then
    Done (Some [], collected_state maxLen s, empty_reply maxLen)
  else if count <=? cap maxLen then
    Done (Some ((fun r => Some (info_of r)) <$> copied_out maxLen s),
          release_all (copied_out maxLen s ≫= owned) (collected_state maxLen s),
          copy_prelude maxLen count ++ copy_events NetworkInfo_class 0 (copied_out maxLen s))
  else Undefined.

(** The events of a call that lends the characters of [j] to one library
    call. *)
Definition lend_events (j : jstring) (call : lib_call) : list event :=
  match j with
  | Some str =>
      [Jni (J_GetStringUTFChars str); Lib call;
       Jni (J_ReleaseStringUTFChars j (JvmChars str))]
  | None => [Lib call]
  end.

(** The events of the first loop for element [j] at index [k]. *)
Definition fetch_events (k : nat) (j : jstring) : list event :=
  Jni (J_GetObjectArrayElement (Z.of_nat k))
  :: match j with
     | Some str => [Jni (J_GetStringUTFChars str)]
     | None => []
     end.

Fixpoint fetch_all (k : nat) (js : list jstring) : list event :=
  match js with
  | [] => []
  | j :: js' => fetch_events k j ++ fetch_all (S k) js'
  end.

(** The events of the second loop for element [j]. *)
Definition unfetch_events (j : jstring) : list event :=
  match j with
  | Some str =>
      [Jni (J_ReleaseStringUTFChars j (JvmChars str));
       Jni (J_DeleteLocalRef (JString str))]
  | None => []
  end.

(** The arguments [retainNetworkInstance] hands to
    [retain_network_instance]: [c_names.data()] or null, and [(size_t)n]. *)
Definition retain_arguments (names : jobjectArray string)
  : option (list const_char_ptr) * Z :=
  let a := default [] names in
  let n := Z.of_nat (length a) in
  (if n =? 0 then None else Some (utf_chars <$> a), size_t_of n).

(** The events of a call of [retainNetworkInstance]. *)
Definition retain_events (names : jobjectArray string) : list event :=
  match names with
  | None => [Lib (C_retain_network_instance None 0)]
  | Some a =>
      Jni J_GetArrayLength :: fetch_all 0 a
      ++ Lib (C_retain_network_instance
                (retain_arguments names).1 (retain_arguments names).2)
      :: (a ≫= unfetch_events)
  end.

End Specification.

(** ** A scripted library

    A test double of [easytier.h].  Status codes and the error string are
    fixed by the script; [collect_network_infos] stores the [available]
    records and reports either their number clamped to [max_length]
    ([clamps]) or their number as it is; [free_string] logs what it was
    given. *)
Record script : Type := mkScript {
  status : Z;
  available : list KeyValuePair;
  clamps : bool;
  error : const_char_ptr;
  given_back : list const_char_ptr;
}.

#[global] Instance scripted : EasyTier script := {
  set_tun_fd _ _ s := (status s, s);
  parse_config _ s := (status s, s);
  run_network_instance _ s := (status s, s);
  retain_network_instance _ _ s := (status s, s);
  collect_network_infos _ max_length s :=
    (if clamps s
     then Z.min (Z.of_nat (length (available s))) max_length
     else Z.of_nat (length (available s)),
     available s, s);
  get_error_msg _ s := (error s, s);
  free_string p s :=
    {| status := status s;
       available := available s;
       clamps := clamps s;
       error := error s;
       given_back := given_back s ++ [p] |};
}.

(** ** Sample library states *)

Definition status_record : KeyValuePair :=
  {| key := Some (LibString 1 "status"); value := Some (LibString 2 "running") |}.

Definition peers_record : KeyValuePair :=
  {| key := Some (LibString 3 "peers"); value := None |}.

(** A library with one instance that has two attributes to report and a
    recorded failure. *)
Definition one_instance : script :=
  {| status := 1;
     available := [status_record; peers_record];
     clamps := true;
     error := Some (LibString 9 "bad config");
     given_back := [] |}.

(** The same library with a collector that reports how many records there
    are, whatever the length of the buffer. *)
Definition one_instance_unclamped : script :=
  {| status := 1;
     available := [status_record; peers_record];
     clamps := false;
     error := Some (LibString 9 "bad config");
     given_back := [] |}.



(** ** JNI resources of a run *)

(** The strings whose UTF characters a run asks the JVM for, in order. *)
Definition chars_acquired (t : list event) : list string :=
  omap (fun e => match e with Jni (J_GetStringUTFChars str) => Some str | _ => None end) t.

(** The (string, characters) pairs a run gives back to the JVM, in order. *)
Definition chars_released (t : list event) : list (jstring * c_str) :=
  omap (fun e => match e with
                 | Jni (J_ReleaseStringUTFChars j chars) => Some (j, chars)
                 | _ => None
                 end) t.

(** The objects a run creates a local reference to with [NewStringUTF] or
    [NewObject]. *)
Definition refs_created (t : list event) : list jobject :=
  omap (fun e => match e with
                 | Jni (J_NewStringUTF p) => Some (JString (c_chars p))
                 | Jni (J_NewObject _ a1 a2) =>
                     Some (JNetworkInfo {| info_key := a1; info_value := a2 |})
                 | _ => None
                 end) t.

(** The objects whose local reference a run deletes, in order. *)
Definition refs_deleted (t : list event) : list jobject :=
  omap (fun e => match e with Jni (J_DeleteLocalRef o) => Some o | _ => None end) t.

(** The indices a run passes to [GetObjectArrayElement], in order. *)
Definition elements_fetched (t : list event) : list Z :=
  omap (fun e => match e with Jni (J_GetObjectArrayElement i) => Some i | _ => None end) t.

(** The run makes one library call; the characters of the strings [held]
    are acquired before it, in order, and given back after it, in order,
    each with the string it came from. *)
Definition lends_around_call (held : list string) (t : list event) : Prop :=
  exists t1 c t2,
    t = t1 ++ Lib c :: t2
    /\ chars_acquired t1 = held /\ chars_released t1 = [] /\ lib_calls t1 = []
    /\ chars_acquired t2 = []
    /\ chars_released t2 = (fun str => (Some str, JvmChars str)) <$> held
    /\ lib_calls t2 = [].

(** The strings read so far, after event [e]. *)
Definition copied_by (e : event) (seen : list c_str) : list c_str :=
  match e with
  | Jni (J_NewStringUTF p) => p :: seen
  | _ => seen
  end.

(** Every pointer passed to [free_string] is non-null and was read by
    [NewStringUTF] earlier in the run ([seen] holds the strings read so
    far). *)
Fixpoint freed_after_copy (seen : list c_str) (t : list event) : Prop :=
  match t with
  | [] => True
  | e :: t' =>
      match e with
      | Lib (C_free_string q) => exists p, q = Some p /\ p ∈ seen
      | _ => True
      end
      /\ freed_after_copy (copied_by e seen) t'
  end.

(** ** Facts about the embedding *)

Section Facts.
Context {L : Type} {lib : EasyTier L}.
Local Abbreviation M := (M (L := L)).
Implicit Types s : L.

(** *** The monad *)

Lemma bind_done {A B} (m : M A) (k : A -> M B) s a s1 t1 :
  m s = Done (a, s1, t1) ->
  bind m k s =
    match k a s1 with
    | Done (b, s2, t2) => Done (b, s2, t1 ++ t2)
    | Undefined => Undefined
    end.
Proof. intros E. unfold bind. rewrite E. reflexivity. Qed.

Lemma bind_undefined {A B} (m : M A) (k : A -> M B) s :
  m s = Undefined -> bind m k s = Undefined.
Proof. intros E. unfold bind. rewrite E. reflexivity. Qed.

Lemma native_run {A} (c : lib_call) (f : L -> A * L) s :
  native c f s = Done ((f s).1, (f s).2, [Lib c]).
Proof. unfold native. destruct (f s). reflexivity. Qed.

Lemma vec_at_lookup {A} (v : list A) (k : nat) (x : A) s :
  v !! k = Some x -> vec_at v (Z.of_nat k) s = Done (x, s, []).
Proof.
  intros E. unfold vec_at.
  destruct (Z.ltb_spec (Z.of_nat k) 0) as [Hneg|_]; [lia|].
  rewrite Nat2Z.id, E. reflexivity.
Qed.

Lemma vec_at_overrun {A} (v : list A) (k : nat) s :
  (length v <= k)%nat -> vec_at v (Z.of_nat k) s = Undefined.
Proof.
  intros Hk. unfold vec_at.
  destruct (Z.ltb_spec (Z.of_nat k) 0) as [Hneg|_]; [lia|].
  rewrite Nat2Z.id, (lookup_ge_None_2 v k Hk). reflexivity.
Qed.

Lemma vec_set_inside {A} (v : list A) (k : nat) (x : A) s :
  (k < length v)%nat -> vec_set v (Z.of_nat k) x s = Done (<[k := x]> v, s, []).
Proof.
  intros Hk. unfold vec_set.
  destruct (Z.leb_spec 0 (Z.of_nat k)); [|lia].
  destruct (Z.ltb_spec (Z.of_nat k) (Z.of_nat (length v))); [|lia].
  simpl. rewrite Nat2Z.id. reflexivity.
Qed.

(** *** The copy loop of [getNetworkInfos] *)

Lemma copy_record_run buf cls ctor (k : nat) r arr s :
  buf !! k = Some r ->
  copy_record buf cls ctor (Z.of_nat k) arr s =
    Done (<[k := Some (info_of r)]> arr,
          release_all (owned r) s,
          record_events cls (Z.of_nat k) r).
Proof.
  intros E. unfold copy_record.
  rewrite (bind_done _ _ _ _ _ _ (vec_at_lookup buf k r s E)).
  unfold env_SetObjectArrayElement.
  destruct (Z.ltb_spec (Z.of_nat k) 0) as [Hneg|_]; [lia|].
  rewrite Nat2Z.id.
  destruct r as [[kp|] [vp|]]; reflexivity.
Qed.

Lemma copy_record_overrun buf cls ctor (k : nat) arr s :
  (length buf <= k)%nat ->
  copy_record buf cls ctor (Z.of_nat k) arr s = Undefined.
Proof.
  intros Hk. unfold copy_record.
  apply bind_undefined, vec_at_overrun, Hk.
Qed.

Lemma release_all_app ps qs s :
  release_all (ps ++ qs) s = release_all qs (release_all ps s).
Proof. unfold release_all. apply foldl_app. Qed.

Lemma copy_loop_run buf cls ctor rs : forall (k : nat) arr s,
  take (length rs) (drop k buf) = rs ->
  for_iter (length rs) (Z.of_nat k) (copy_record buf cls ctor) arr s =
    Done (copied k rs arr,
          release_all (rs ≫= owned) s,
          copy_events cls k rs).
Proof.
  induction rs as [|r rs IH]; intros k arr s Hrs.
  - reflexivity.
  - assert (Hk : buf !! k = Some r).
    { rewrite <- (Nat.add_0_r k), <- lookup_drop.
      rewrite <- (lookup_take_lt _ (length (r :: rs))) by (simpl; lia).
      rewrite Hrs. reflexivity. }
    assert (Hrest : take (length rs) (drop (S k) buf) = rs).
    { apply (f_equal (drop 1)) in Hrs. simpl in Hrs.
      rewrite <- Hrs at 2.
      rewrite (drop_S _ _ _ Hk). simpl. rewrite drop_0. reflexivity. }
    simpl for_iter.
    rewrite (bind_done _ _ _ _ _ _ (copy_record_run buf cls ctor k r arr s Hk)).
    replace (Z.of_nat k + 1) with (Z.of_nat (S k)) by lia.
    rewrite (IH (S k) _ _ Hrest).
    simpl. rewrite release_all_app. reflexivity.
Qed.

Lemma copy_loop_overrun buf cls ctor (n : nat) : forall (k : nat) arr s,
  (k <= length buf < k + n)%nat ->
  for_iter n (Z.of_nat k) (copy_record buf cls ctor) arr s = Undefined.
Proof.
  induction n as [|n IH]; intros k arr s Hk; [lia|].
  simpl for_iter.
  destruct (buf !! k) as [r|] eqn:E.
  - apply lookup_lt_Some in E as Hlt.
    rewrite (bind_done _ _ _ _ _ _ (copy_record_run buf cls ctor k r arr s E)).
    replace (Z.of_nat k + 1) with (Z.of_nat (S k)) by lia.
    rewrite IH by lia. reflexivity.
  - apply lookup_ge_None_1 in E.
    apply bind_undefined, copy_record_overrun, E.
Qed.

Lemma copied_fill rs : forall (k : nat) (pre : list (option NetworkInfo)),
  length pre = k ->
  copied k rs (pre ++ replicate (length rs) None) =
    pre ++ ((fun r => Some (info_of r)) <$> rs).
Proof.
  induction rs as [|r rs IH]; intros k pre Hpre; simpl.
  - reflexivity.
  - rewrite insert_app_r_alt by lia.
    replace (k - length pre)%nat with 0%nat by lia. simpl.
    rewrite (cons_middle (Some (info_of r)) pre (replicate (length rs) None)).
    rewrite app_assoc, IH by (rewrite length_app; simpl; lia).
    rewrite <- app_assoc. reflexivity.
Qed.

(** *** [getNetworkInfos], end to end *)

Lemma cap_nonneg maxLen : 0 <= cap maxLen.
Proof.
  unfold cap, size_t_of. destruct (0 <? maxLen); [|lia].
  apply Z.mod_pos_bound. lia.
Qed.

Lemma cap_positive maxLen : 0 < maxLen -> cap maxLen <= maxLen.
Proof.
  intros H. unfold cap, size_t_of.
  destruct (Z.ltb_spec 0 maxLen); [|lia].
  apply Z.mod_le; lia.
Qed.

Lemma cap_jint maxLen : 0 < maxLen < 2 ^ 31 -> cap maxLen = maxLen.
Proof.
  intros H. unfold cap, size_t_of.
  destruct (Z.ltb_spec 0 maxLen); [|lia].
  apply Z.mod_small. lia.
Qed.

Lemma cap_default maxLen : maxLen <= 0 -> cap maxLen = 256.
Proof. intros H. unfold cap. destruct (Z.ltb_spec 0 maxLen); [lia|reflexivity]. Qed.

Lemma length_store_records written buf :
  length (store_records written buf) = length buf.
Proof.
  unfold store_records.
  rewrite length_take, length_app, length_drop. lia.
Qed.

Lemma length_collected_buf maxLen s :
  Z.of_nat (length (collected_buf maxLen s)) = cap maxLen.
Proof.
  unfold collected_buf, collected.
  destruct (collect_network_infos _ _ s) as [[count written] s1]. simpl.
  rewrite length_store_records, length_replicate.
  pose proof (cap_nonneg maxLen). lia.
Qed.

Lemma call_collect_run maxLen s :
  call_collect_network_infos
    (replicate (Z.to_nat (cap maxLen)) null_pair)
    (Z.of_nat (length (replicate (Z.to_nat (cap maxLen)) null_pair (A := KeyValuePair)))) s
  = Done ((collected_count maxLen s, collected_buf maxLen s),
          collected_state maxLen s,
          [Lib (C_collect_network_infos (cap maxLen))]).
Proof.
  unfold call_collect_network_infos, native, collected_count, collected_buf,
    collected_state, collected.
  destruct (collect_network_infos _ _ s) as [[count written] s1]. simpl.
  rewrite length_replicate, Z2Nat.id by apply cap_nonneg. reflexivity.
Qed.

Lemma getNetworkInfos_run maxLen s :
  getNetworkInfos maxLen s = getNetworkInfos_outcome maxLen s.
Proof.
  unfold Java_org_fcl_enchantnetcore_easytier_NativeBridge_getNetworkInfos,
    getNetworkInfos_outcome.
  rewrite (bind_done _ _ _ _ _ _ (call_collect_run maxLen s)).
  set (count := collected_count maxLen s).
  set (buf := collected_buf maxLen s).
  set (s1 := collected_state maxLen s).
  destruct (Z.leb_spec count 0) as [Hle|Hpos]; [reflexivity|].
  pose proof (length_collected_buf maxLen s) as Hlen. fold buf in Hlen.
  unfold for_loop.
  destruct (Z.leb_spec count (cap maxLen)) as [Hin|Hout].
  - assert (Htake : length (take (Z.to_nat count) buf) = Z.to_nat count)
      by (rewrite length_take; lia).
    pose proof (copy_loop_run buf NetworkInfo_class
                  ("<init>"%string, "(Ljava/lang/String;Ljava/lang/String;)V"%string)
                  (take (Z.to_nat count) buf) 0
                  (replicate (Z.to_nat count) None) s1) as Hloop.
    rewrite Htake, drop_0 in Hloop. specialize (Hloop eq_refl).
    cbn [bind env_FindClass env_GetMethodID env_NewObjectArray jni].
    change (Z.of_nat 0) with 0 in Hloop.
    rewrite (bind_done _ _ _ _ _ _ Hloop). cbn [ret].
    pose proof (copied_fill (take (Z.to_nat count) buf) 0 [] eq_refl) as Hfill.
    rewrite Htake in Hfill. simpl in Hfill. rewrite Hfill, app_nil_r.
    reflexivity.
  - cbn [bind env_FindClass env_GetMethodID env_NewObjectArray jni].
    rewrite bind_undefined; [reflexivity|].
    apply (copy_loop_overrun buf _ _ (Z.to_nat count) 0). lia.
Qed.

(** *** The three string-argument entry points *)

Lemma parseConfig_run cfg s :
  parseConfig cfg s =
    Done ((parse_config (utf_chars cfg) s).1,
          (parse_config (utf_chars cfg) s).2,
          lend_events cfg (C_parse_config (utf_chars cfg))).
Proof.
  unfold Java_org_fcl_enchantnetcore_easytier_NativeBridge_parseConfig,
    bind, call_parse_config, native.
  destruct cfg as [str|]; simpl; destruct (parse_config _ s); reflexivity.
Qed.

Lemma runNetworkInstance_run cfg s :
  runNetworkInstance cfg s =
    Done ((run_network_instance (utf_chars cfg) s).1,
          (run_network_instance (utf_chars cfg) s).2,
          lend_events cfg (C_run_network_instance (utf_chars cfg))).
Proof.
  unfold Java_org_fcl_enchantnetcore_easytier_NativeBridge_runNetworkInstance,
    bind, call_run_network_instance, native.
  destruct cfg as [str|]; simpl; destruct (run_network_instance _ s); reflexivity.
Qed.

Lemma setTunFd_run instName fd s :
  setTunFd instName fd s =
    Done ((set_tun_fd (utf_chars instName) fd s).1,
          (set_tun_fd (utf_chars instName) fd s).2,
          lend_events instName (C_set_tun_fd (utf_chars instName) fd)).
Proof.
  unfold Java_org_fcl_enchantnetcore_easytier_NativeBridge_setTunFd,
    bind, call_set_tun_fd, native.
  destruct instName as [str|]; simpl; destruct (set_tun_fd _ fd s); reflexivity.
Qed.

(** *** [retainNetworkInstance] *)

Lemma marshal_name_run (a : list jstring) (k : nat) (j : jstring)
    (jnames : list jstring) (c_names : list const_char_ptr) s :
  a !! k = Some j ->
  (k < length jnames)%nat -> (k < length c_names)%nat ->
  marshal_name (Some a) (Z.of_nat k) (jnames, c_names) s =
    Done ((<[k := j]> jnames, <[k := utf_chars j]> c_names), s, fetch_events k j).
Proof.
  intros E Hj Hc. unfold marshal_name, env_GetObjectArrayElement.
  change (default [] (Some a)) with a.
  destruct (Z.ltb_spec (Z.of_nat k) 0) as [Hneg|_]; [lia|].
  rewrite Nat2Z.id, E. change (default None (Some j)) with j.
  cbn [bind jni].
  rewrite (bind_done _ _ _ _ _ _ (vec_set_inside jnames k j s Hj)).
  destruct j as [str|]; cbn [bind env_GetStringUTFChars jni ret];
    rewrite (bind_done _ _ _ _ _ _ (vec_set_inside c_names k _ s Hc));
    reflexivity.
Qed.

Lemma marshal_loop_run (a : list jstring) (rest : list jstring) :
  forall (done : list jstring) s,
  a = done ++ rest ->
  for_iter (length rest) (Z.of_nat (length done)) (marshal_name (Some a))
    (done ++ replicate (length rest) None,
     (utf_chars <$> done) ++ replicate (length rest) None) s
  = Done ((a, utf_chars <$> a), s, fetch_all (length done) rest).
Proof.
  induction rest as [|j rest IH]; intros done s Ha.
  - simpl. rewrite !app_nil_r in *. subst a. reflexivity.
  - simpl for_iter.
    assert (E : a !! length done = Some j).
    { subst a. rewrite lookup_app_r by lia.
      replace (length done - length done)%nat with 0%nat by lia. reflexivity. }
    assert (Hj : (length done <
                  length (done ++ replicate (length (j :: rest)) (None : jstring)))%nat)
      by (rewrite length_app, length_replicate; simpl; lia).
    assert (Hc : (length done <
                  length ((utf_chars <$> done)
                          ++ replicate (length (j :: rest)) (None : const_char_ptr)))%nat)
      by (rewrite length_app, length_fmap, length_replicate; simpl; lia).
    rewrite (bind_done _ _ _ _ _ _ (marshal_name_run a (length done) j _ _ s E Hj Hc)).
    clear Hj Hc.
    rewrite insert_app_r_alt by lia.
    rewrite (insert_app_r_alt (utf_chars <$> done)) by (rewrite length_fmap; lia).
    rewrite length_fmap.
    replace (length done - length done)%nat with 0%nat by lia.
    simpl replicate. simpl.
    rewrite (cons_middle j done), (cons_middle (utf_chars j) (utf_chars <$> done)).
    rewrite !app_assoc.
    replace ((utf_chars <$> done) ++ [utf_chars j]) with (utf_chars <$> (done ++ [j]))
      by (rewrite fmap_app; reflexivity).
    replace (Z.of_nat (length done) + 1) with (Z.of_nat (length (done ++ [j])))
      by (rewrite length_app; simpl; lia).
    rewrite (IH (done ++ [j]) s) by (rewrite <- app_assoc; exact Ha).
    rewrite length_app. simpl.
    replace (length done + 1)%nat with (S (length done)) by lia.
    reflexivity.
Qed.

Lemma release_name_run (a : list jstring) (k : nat) (j : jstring) s :
  a !! k = Some j ->
  release_name a (utf_chars <$> a) (Z.of_nat k) tt s = Done (tt, s, unfetch_events j).
Proof.
  intros E. unfold release_name.
  rewrite (bind_done _ _ _ _ _ _ (vec_at_lookup a k j s E)).
  destruct j as [str|]; [|reflexivity].
  assert (Ec : (utf_chars <$> a) !! k = Some (Some (JvmChars str)))
    by (rewrite list_lookup_fmap, E; reflexivity).
  cbn beta iota.
  erewrite (bind_done (let* c := vec_at _ _ in _));
    [|rewrite (bind_done _ _ _ _ _ _ (vec_at_lookup _ k _ s Ec)); reflexivity].
  reflexivity.
Qed.

Lemma release_loop_run (a : list jstring) (rest : list jstring) :
  forall (k : nat) s,
  drop k a = rest ->
  for_iter (length rest) (Z.of_nat k) (release_name a (utf_chars <$> a)) tt s
  = Done (tt, s, rest ≫= unfetch_events).
Proof.
  induction rest as [|j rest IH]; intros k s Hdrop.
  - reflexivity.
  - simpl for_iter.
    assert (E : a !! k = Some j).
    { rewrite <- (Nat.add_0_r k), <- lookup_drop, Hdrop. reflexivity. }
    rewrite (bind_done _ _ _ _ _ _ (release_name_run a k j s E)).
    replace (Z.of_nat k + 1) with (Z.of_nat (S k)) by lia.
    rewrite IH; [reflexivity|].
    rewrite (drop_S _ _ _ E) in Hdrop. congruence.
Qed.

Lemma retainNetworkInstance_run names s :
  retainNetworkInstance names s =
    let (ptr, count) := retain_arguments names in
    Done ((retain_network_instance ptr count s).1,
          (retain_network_instance ptr count s).2,
          retain_events names).
Proof.
  unfold Java_org_fcl_enchantnetcore_easytier_NativeBridge_retainNetworkInstance.
  destruct names as [a|].
  - cbn [bind env_GetArrayLength jni]. unfold for_loop.
    rewrite Nat2Z.id.
    pose proof (marshal_loop_run a a [] s eq_refl) as Hfetch.
    simpl in Hfetch.
    rewrite (bind_done _ _ _ _ _ _ Hfetch). cbn beta iota.
    unfold call_retain_network_instance.
    rewrite (bind_done _ _ _ _ _ _ (native_run _ _ s)). cbn beta.
    rewrite (bind_done _ _ _ _ _ _ (release_loop_run a a 0 _ (drop_0 a))).
    cbn [ret]. unfold retain_arguments, retain_events.
    change (default [] (Some a)) with a. simpl. rewrite app_nil_r.
    reflexivity.
  - unfold retain_arguments, retain_events, call_retain_network_instance, native.
    simpl. unfold bind. simpl.
    change (size_t_of (Z.of_nat 0)) with 0. change (size_t_of 0) with 0.
    destruct (retain_network_instance None 0 s); reflexivity.
Qed.

(** *** [getLastError] *)

Lemma getLastError_run s :
  getLastError s =
    match (get_error_msg None s).1 with
    | None => Done (None, (get_error_msg None s).2, [Lib C_get_error_msg])
    | Some p =>
        Done (Some (c_chars p),
              free_string (Some p) (get_error_msg None s).2,
              [Lib C_get_error_msg; Jni (J_NewStringUTF p); Lib (C_free_string (Some p))])
    end.
Proof.
  unfold Java_org_fcl_enchantnetcore_easytier_NativeBridge_getLastError,
    bind, call_get_error_msg, native.
  destruct (get_error_msg None s) as [[p|] s1]; reflexivity.
Qed.

End Facts.

Section Claims.
Context {L : Type} {lib : EasyTier L}.
Implicit Types s : L.

Lemma length_copied_out maxLen s :
  collected_count maxLen s <= cap maxLen ->
  Z.of_nat (length (copied_out maxLen s)) = Z.max 0 (collected_count maxLen s).
Proof.
  intros H. unfold copied_out. rewrite length_take.
  pose proof (length_collected_buf maxLen s). lia.
Qed.

(** Within the buffer the call always comes back with an array: the records
    copied out, each turned into a [NetworkInfo]. *)
Lemma getNetworkInfos_within maxLen s :
  collected_count maxLen s <= cap maxLen ->
  exists t,
    getNetworkInfos maxLen s =
      Done (Some ((fun r => Some (info_of r)) <$> copied_out maxLen s),
            release_all (copied_out maxLen s ≫= owned) (collected_state maxLen s),
            t)
    /\ (t = empty_reply maxLen /\ collected_count maxLen s <= 0
        \/ t = copy_prelude maxLen (collected_count maxLen s)
               ++ copy_events NetworkInfo_class 0 (copied_out maxLen s)).
Proof.
  intros H. rewrite getNetworkInfos_run. unfold getNetworkInfos_outcome.
  destruct (Z.leb_spec (collected_count maxLen s) 0) as [Hle|Hpos].
  - exists (empty_reply maxLen). split; [|left; split; [reflexivity|exact Hle]].
    unfold copied_out.
    replace (Z.to_nat (collected_count maxLen s)) with 0%nat by lia.
    reflexivity.
  - destruct (Z.leb_spec (collected_count maxLen s) (cap maxLen)); [|lia].
    eexists. split; [reflexivity|right; reflexivity].
Qed.

Lemma getNetworkInfos_done_within maxLen s x :
  getNetworkInfos maxLen s = Done x ->
  collected_count maxLen s <= cap maxLen.
Proof.
  rewrite getNetworkInfos_run. unfold getNetworkInfos_outcome.
  pose proof (cap_nonneg maxLen).
  destruct (Z.leb_spec (collected_count maxLen s) 0); [lia|].
  destruct (Z.leb_spec (collected_count maxLen s) (cap maxLen)); [lia|].
  discriminate.
Qed.

(** C5: for every capacity N > 0, when the collector returns a count no
    greater than the length of the buffer it was given, [getNetworkInfos N]
    returns an array of at most N records. *)
Theorem getNetworkInfos_at_most_capacity (N : Z) s :
  0 < N ->
  collected_count N s <= cap N ->
  exists (arr : list (option NetworkInfo)) s' t,
    getNetworkInfos N s = Done (Some arr, s', t)
    /\ Z.of_nat (length arr) <= N.
Proof.
  intros HN Hcount.
  destruct (getNetworkInfos_within N s Hcount) as (t & Hrun & _).
  eexists _, _, t. split; [exact Hrun|].
  rewrite length_fmap, (length_copied_out N s Hcount).
  pose proof (cap_positive N HN). lia.
Qed.

(** C1 (amended): capacity 0 selects the default buffer of 256 records.
    The collector is called with [max_length] 256 and, when it returns a
    count no greater than that, the array has exactly max(0, count)
    records: it is empty exactly when the collector reports a non-positive
    count, and never longer than 256. *)
Theorem getNetworkInfos_zero_capacity s :
  collected_count 0 s <= 256 ->
  exists (arr : list (option NetworkInfo)) s' t,
    getNetworkInfos 0 s = Done (Some arr, s', t)
    /\ head (lib_calls t) = Some (C_collect_network_infos 256)
    /\ Z.of_nat (length arr) = Z.max 0 (collected_count 0 s)
    /\ (arr = [] <-> collected_count 0 s <= 0).
Proof.
  intros Hcount. change 256 with (cap 0) in Hcount.
  destruct (getNetworkInfos_within 0 s Hcount) as (t & Hrun & Ht).
  pose proof (length_copied_out 0 s Hcount) as Hlen.
  eexists _, _, t. split; [exact Hrun|].
  split; [destruct Ht as [[-> _]| ->]; reflexivity|].
  split; [rewrite length_fmap; exact Hlen|].
  split.
  - intros Hnil. apply (f_equal length) in Hnil.
    rewrite length_fmap in Hnil. simpl in Hnil. lia.
  - intros Hle. apply nil_length_inv. rewrite length_fmap. lia.
Qed.

(** C3 (amended): for every return value of the collector that does not
    exceed the length of the buffer it was given, zero and every negative
    code included, [getNetworkInfos] returns an array (never null, never
    undefined) of exactly max(0, count) records, none of them null; a
    non-positive count gives the empty array. *)
Theorem getNetworkInfos_never_fails_within_capacity maxLen s :
  collected_count maxLen s <= cap maxLen ->
  exists (arr : list (option NetworkInfo)) s' t,
    getNetworkInfos maxLen s = Done (Some arr, s', t)
    /\ Forall (fun item => item <> None) arr
    /\ Z.of_nat (length arr) = Z.max 0 (collected_count maxLen s)
    /\ (collected_count maxLen s <= 0 -> arr = []).
Proof.
  intros Hcount.
  destruct (getNetworkInfos_within maxLen s Hcount) as (t & Hrun & _).
  pose proof (length_copied_out maxLen s Hcount) as Hlen.
  eexists _, _, t. split; [exact Hrun|].
  split; [|split].
  - apply Forall_fmap, Forall_forall. intros r _. discriminate.
  - rewrite length_fmap. exact Hlen.
  - intros Hle. apply nil_length_inv. rewrite length_fmap. lia.
Qed.

(** C7: [getNetworkInfos] keeps the collector's order.  Whenever it returns
    (and it does whenever the count stays within the buffer), the array is
    the first [count] records of the buffer in the collector's order:
    for every [i] below the count, element [i] is built from the key and
    the value of record [i]; the records dropped are the later ones. *)
Theorem getNetworkInfos_keeps_record_order maxLen s :
  (collected_count maxLen s <= cap maxLen ->
   exists (arr : list (option NetworkInfo)) s' t,
     getNetworkInfos maxLen s = Done (Some arr, s', t))
  /\ (forall (r : jobjectArray NetworkInfo) s' t,
        getNetworkInfos maxLen s = Done (r, s', t) ->
        exists arr : list (option NetworkInfo),
          r = Some arr
          /\ arr = (fun rec => Some (info_of rec))
                    <$> take (Z.to_nat (collected_count maxLen s))
                             (collected_buf maxLen s)
          /\ forall i : nat,
               Z.of_nat i < collected_count maxLen s ->
               exists rec,
                 collected_buf maxLen s !! i = Some rec
                 /\ arr !! i = Some (Some {| info_key := c_chars <$> key rec;
                                             info_value := c_chars <$> value rec |})).
Proof.
  split.
  - intros Hcount.
    destruct (getNetworkInfos_within maxLen s Hcount) as (t & Hrun & _).
    eexists _, _, t. exact Hrun.
  - intros r s' t Hdone.
    pose proof (getNetworkInfos_done_within _ _ _ Hdone) as Hcount.
    destruct (getNetworkInfos_within maxLen s Hcount) as (t' & Hrun & _).
    rewrite Hrun in Hdone. injection Hdone as <- _ _.
    eexists. split; [reflexivity|]. split; [reflexivity|].
    intros i Hi.
    pose proof (length_collected_buf maxLen s) as Hlen.
    destruct (lookup_lt_is_Some_2 (collected_buf maxLen s) i) as [rec Hrec]; [lia|].
    exists rec. split; [exact Hrec|].
    unfold copied_out. rewrite list_lookup_fmap, lookup_take_lt by lia.
    rewrite Hrec. reflexivity.
Qed.

Lemma lib_calls_lend (j : jstring) (call : lib_call) :
  lib_calls (lend_events j call) = [call].
Proof. destruct j; reflexivity. Qed.

Lemma lib_calls_fetch_all (a : list jstring) : forall k, lib_calls (fetch_all k a) = [].
Proof.
  induction a as [|j a IH]; intros k; [reflexivity|].
  simpl. unfold lib_calls in *. rewrite omap_app, IH.
  destruct j; reflexivity.
Qed.

Lemma lib_calls_unfetch (a : list jstring) : lib_calls (a ≫= unfetch_events) = [].
Proof.
  induction a as [|j a IH]; [reflexivity|].
  change ((j :: a) ≫= unfetch_events)
    with (unfetch_events j ++ (a ≫= unfetch_events)).
  unfold lib_calls in *. rewrite omap_app, IH.
  destruct j; reflexivity.
Qed.

Lemma lib_calls_retain (names : jobjectArray string) :
  lib_calls (retain_events names) =
    [C_retain_network_instance (retain_arguments names).1 (retain_arguments names).2].
Proof.
  destruct names as [a|]; [|reflexivity].
  unfold retain_events.
  change (lib_calls (Jni J_GetArrayLength :: ?t)) with (lib_calls t).
  unfold lib_calls at 1. rewrite omap_app. fold (lib_calls (fetch_all 0 a)).
  rewrite lib_calls_fetch_all. simpl.
  f_equal. apply lib_calls_unfetch.
Qed.

(** C4: each of [parseConfig], [runNetworkInstance], [setTunFd] and
    [retainNetworkInstance] always returns, makes exactly one library call,
    on the marshalled arguments, and its result is the status code of that
    call, untranslated; the library state it leaves is the one that call
    left. *)
Theorem status_codes_pass_through
    (cfg instName : jstring) (fd : Z) (names : jobjectArray string) s :
  (exists t,
      parseConfig cfg s =
        Done ((parse_config (utf_chars cfg) s).1, (parse_config (utf_chars cfg) s).2, t)
      /\ lib_calls t = [C_parse_config (utf_chars cfg)])
  /\ (exists t,
        runNetworkInstance cfg s =
          Done ((run_network_instance (utf_chars cfg) s).1,
                (run_network_instance (utf_chars cfg) s).2, t)
        /\ lib_calls t = [C_run_network_instance (utf_chars cfg)])
  /\ (exists t,
        setTunFd instName fd s =
          Done ((set_tun_fd (utf_chars instName) fd s).1,
                (set_tun_fd (utf_chars instName) fd s).2, t)
        /\ lib_calls t = [C_set_tun_fd (utf_chars instName) fd])
  /\ (exists t ptr count,
        retain_arguments names = (ptr, count)
        /\ retainNetworkInstance names s =
             Done ((retain_network_instance ptr count s).1,
                   (retain_network_instance ptr count s).2, t)
        /\ lib_calls t = [C_retain_network_instance ptr count]).
Proof.
  repeat split.
  - eexists. split; [apply parseConfig_run|apply lib_calls_lend].
  - eexists. split; [apply runNetworkInstance_run|apply lib_calls_lend].
  - eexists. split; [apply setTunFd_run|apply lib_calls_lend].
  - pose proof (retainNetworkInstance_run names s) as Hrun.
    pose proof (lib_calls_retain names) as Hcalls.
    destruct (retain_arguments names) as [ptr count].
    eexists _, ptr, count. split; [reflexivity|]. split; [exact Hrun|exact Hcalls].
Qed.

(** C6: [getLastError] returns null when [get_error_msg] leaves the
    out-pointer null, and otherwise a string with the characters of the
    message the out-pointer was set to. *)
Theorem getLastError_returns_recorded_message s :
  exists (r : jstring) s' t,
    getLastError s = Done (r, s', t)
    /\ r = c_chars <$> (get_error_msg None s).1
    /\ ((get_error_msg None s).1 = None -> r = None)
    /\ (forall p, (get_error_msg None s).1 = Some p -> r = Some (c_chars p)).
Proof.
  rewrite getLastError_run.
  destruct (get_error_msg None s).1 as [p|]; eexists _, _, _;
    (split; [reflexivity|]); repeat split; congruence.
Qed.

(** C8: [setTunFd] hands the descriptor to [set_tun_fd] as it received it;
    that call is its only library call, and it performs no operation of
    the host system on any descriptor (no close, no dup). *)
Theorem setTunFd_forwards_descriptor (instName : jstring) (fd : Z) s :
  exists r s' t,
    setTunFd instName fd s = Done (r, s', t)
    /\ lib_calls t = [C_set_tun_fd (utf_chars instName) fd]
    /\ os_calls t = [].
Proof.
  rewrite setTunFd_run. eexists _, _, _. split; [reflexivity|].
  split; [apply lib_calls_lend|]. destruct instName; reflexivity.
Qed.

(** C9: a null name list reaches [retain_network_instance] as a null
    pointer with count 0; a list of n names reaches it with count n and
    the n marshalled names in their order (a null pointer when n is 0). *)
Theorem retainNetworkInstance_passes_names (names : jobjectArray string) s :
  jint_range (Z.of_nat (length (default [] names))) ->
  exists r s' t,
    retainNetworkInstance names s = Done (r, s', t)
    /\ (names = None -> lib_calls t = [C_retain_network_instance None 0])
    /\ (forall a, names = Some a ->
          exists ptr,
            lib_calls t = [C_retain_network_instance ptr (Z.of_nat (length a))]
            /\ default [] ptr = utf_chars <$> a
            /\ (ptr = None <-> a = [])).
Proof.
  intros Hsize.
  pose proof (retainNetworkInstance_run names s) as Hrun.
  pose proof (lib_calls_retain names) as Hcalls.
  destruct (retain_arguments names) as [ptr count] eqn:Hargs.
  eexists _, _, _. split; [exact Hrun|]. split.
  - intros ->. reflexivity.
  - intros a ->. exists ptr. simpl in Hcalls.
    unfold retain_arguments in Hargs. change (default [] (Some a)) with a in *.
    injection Hargs as Hptr Hcount.
    assert (count = Z.of_nat (length a)) as ->.
    { subst count. unfold size_t_of. apply Z.mod_small.
      unfold jint_range in Hsize. lia. }
    split; [exact Hcalls|].
    destruct a as [|j a]; simpl in Hptr; subst ptr.
    + split; [reflexivity|]. split; reflexivity.
    + destruct (Z.eqb_spec (Z.of_nat (length (j :: a))) 0) as [H0|_];
        [simpl in H0; lia|].
      split; [reflexivity|]. split; discriminate.
Qed.

(** C10: with a null string argument, [parseConfig], [runNetworkInstance]
    and [setTunFd] call the library with a null pointer, without any JNI
    call or check of their own, and return what the library returns. *)
Theorem null_strings_reach_the_library (fd : Z) s :
  Java_org_fcl_enchantnetcore_easytier_NativeBridge_parseConfig None s =
    Done ((parse_config None s).1, (parse_config None s).2,
          [Lib (C_parse_config None)])
  /\ Java_org_fcl_enchantnetcore_easytier_NativeBridge_runNetworkInstance None s =
       Done ((run_network_instance None s).1, (run_network_instance None s).2,
             [Lib (C_run_network_instance None)])
  /\ Java_org_fcl_enchantnetcore_easytier_NativeBridge_setTunFd None fd s =
       Done ((set_tun_fd None fd s).1, (set_tun_fd None fd s).2,
             [Lib (C_set_tun_fd None fd)]).
Proof.
  split; [apply (parseConfig_run None)|].
  split; [apply (runNetworkInstance_run None)|apply (setTunFd_run None)].
Qed.

(** *** Ownership of the library's strings *)











End Claims.

(** ** The claims at sample inputs *)

(** A trace that reads a string after giving it back is told apart. *)
Example use_after_free_is_detected :
  ~ no_use_after_free
      [Lib (C_free_string (Some (LibString 1 "status")));
       Jni (J_NewStringUTF (LibString 1 "status"))].
Proof. intros [Hfree _]. apply Hfree. simpl. apply elem_of_cons. left. reflexivity. Qed.

Lemma getNetworkInfos_at_most_capacity_witness :
  exists (arr : list (option NetworkInfo)) s' t,
    getNetworkInfos 1 one_instance = Done (Some arr, s', t)
    /\ Z.of_nat (length arr) <= 1.
Proof.
  apply (getNetworkInfos_at_most_capacity 1 one_instance); [lia|].
  vm_compute. discriminate.
Defined.

Lemma getNetworkInfos_zero_capacity_witness :
  exists (arr : list (option NetworkInfo)) s' t,
    getNetworkInfos 0 one_instance = Done (Some arr, s', t)
    /\ head (lib_calls t) = Some (C_collect_network_infos 256)
    /\ Z.of_nat (length arr) = Z.max 0 (collected_count 0 one_instance)
    /\ (arr = [] <-> collected_count 0 one_instance <= 0).
Proof.
  apply (getNetworkInfos_zero_capacity one_instance).
  vm_compute. discriminate.
Defined.

(** C1 as stated fails: with capacity 0 the library of [one_instance] is
    given a buffer of 256 records, reports 2, and both come back. *)
Lemma getNetworkInfos_zero_capacity_not_empty :
  exists s' t,
    getNetworkInfos 0 one_instance =
      Done (Some [Some {| info_key := Some "status"; info_value := Some "running" |};
                  Some {| info_key := Some "peers"; info_value := None |}],
            s', t).
Proof. eexists _, _. vm_compute. reflexivity. Qed.

Lemma getNetworkInfos_never_fails_within_capacity_witness :
  exists (arr : list (option NetworkInfo)) s' t,
    getNetworkInfos 1 one_instance = Done (Some arr, s', t)
    /\ Forall (fun item => item <> None) arr
    /\ Z.of_nat (length arr) = Z.max 0 (collected_count 1 one_instance)
    /\ (collected_count 1 one_instance <= 0 -> arr = []).
Proof.
  apply (getNetworkInfos_never_fails_within_capacity 1 one_instance).
  vm_compute. discriminate.
Defined.

(** C3 as stated fails: asked for one record, the collector of
    [one_instance_unclamped] returns 2, and the copy loop indexes the
    one-record buffer at 1. *)
Lemma getNetworkInfos_overrun :
  collected_count 1 one_instance_unclamped = 2
  /\ length (collected_buf 1 one_instance_unclamped) = 1%nat
  /\ getNetworkInfos 1 one_instance_unclamped = Undefined.
Proof. vm_compute. repeat split. Qed.

(** Capacity 1 of 2 records: the first one is kept. *)
Lemma getNetworkInfos_keeps_record_order_witness :
  exists s' t,
    getNetworkInfos 1 one_instance =
      Done (Some [Some {| info_key := Some "status"; info_value := Some "running" |}],
            s', t).
Proof.
  destruct (getNetworkInfos_keeps_record_order 1 one_instance) as [Hreturns Horder].
  destruct Hreturns as (arr & s' & t & Hrun); [vm_compute; discriminate|].
  destruct (Horder _ _ _ Hrun) as (arr' & Harr & Hprefix & _).
  exists s', t. rewrite Hrun. injection Harr as ->. rewrite Hprefix. reflexivity.
Defined.

Lemma retainNetworkInstance_passes_names_witness :
  exists r s' t,
    retainNetworkInstance (Some [Some "n1"; None; Some "n2"]) one_instance
      = Done (r, s', t)
    /\ lib_calls t =
         [C_retain_network_instance
            (Some [Some (JvmChars "n1"); None; Some (JvmChars "n2")]) 3].
Proof.
  destruct (retainNetworkInstance_passes_names
              (Some [Some "n1"; None; Some "n2"]) one_instance)
    as (r & s' & t & Hrun & _ & Hsome).
  - vm_compute. split; [discriminate|reflexivity].
  - exists r, s', t. split; [exact Hrun|].
    destruct (Hsome _ eq_refl) as (ptr & Hcalls & Hnames & Hnull).
    destruct ptr as [l|].
    + simpl in Hnames. subst l. exact Hcalls.
    + exfalso. destruct Hnull as [Hnil _]. discriminate (Hnil eq_refl).
Defined.



(** ** Further properties of the wrapper *)

Section Resources.
Context {L : Type} {lib : EasyTier L}.
Implicit Types s : L.

(** What a finished call of [getNetworkInfos] returned, left and did. *)
Lemma getNetworkInfos_done maxLen s r s' t :
  getNetworkInfos maxLen s = Done (r, s', t) ->
  r = Some ((fun rec => Some (info_of rec)) <$> copied_out maxLen s)
  /\ s' = release_all (copied_out maxLen s ≫= owned) (collected_state maxLen s)
  /\ (t = empty_reply maxLen /\ copied_out maxLen s = []
      \/ t = copy_prelude maxLen (collected_count maxLen s)
             ++ copy_events NetworkInfo_class 0 (copied_out maxLen s)).
Proof.
  intros Hdone.
  pose proof (getNetworkInfos_done_within _ _ _ Hdone) as Hcount.
  destruct (getNetworkInfos_within maxLen s Hcount) as (t' & Hrun & Ht).
  rewrite Hrun in Hdone. injection Hdone as <- <- <-.
  split; [reflexivity|]. split; [reflexivity|].
  destruct Ht as [[-> Hle]| ->]; [left|right; reflexivity].
  split; [reflexivity|]. unfold copied_out.
  replace (Z.to_nat (collected_count maxLen s)) with 0%nat by lia.
  reflexivity.
Qed.

Lemma lend_events_around_call (j : jstring) (call : lib_call) :
  lends_around_call (option_list j) (lend_events j call).
Proof.
  destruct j as [str|].
  - exists [Jni (J_GetStringUTFChars str)], call,
      [Jni (J_ReleaseStringUTFChars (Some str) (JvmChars str))].
    repeat split.
  - exists [], call, []. repeat split.
Qed.

(** X1: [parseConfig], [runNetworkInstance] and [setTunFd] make one library
    call; the characters of a non-null string argument are acquired before
    it and given back after it, once, with the string they came from; for
    a null argument no characters are acquired or given back. *)
Theorem string_arguments_lent_around_call (cfg instName : jstring) (fd : Z) s :
  (exists r s' t,
      parseConfig cfg s = Done (r, s', t)
      /\ lends_around_call (option_list cfg) t)
  /\ (exists r s' t,
        runNetworkInstance cfg s = Done (r, s', t)
        /\ lends_around_call (option_list cfg) t)
  /\ (exists r s' t,
        setTunFd instName fd s = Done (r, s', t)
        /\ lends_around_call (option_list instName) t).
Proof.
  repeat split.
  - eexists _, _, _. split; [apply parseConfig_run|apply lend_events_around_call].
  - eexists _, _, _. split; [apply runNetworkInstance_run|apply lend_events_around_call].
  - eexists _, _, _. split; [apply setTunFd_run|apply lend_events_around_call].
Qed.

Lemma fetch_all_resources (a : list jstring) : forall k,
  chars_acquired (fetch_all k a) = omap id a
  /\ chars_released (fetch_all k a) = []
  /\ refs_deleted (fetch_all k a) = []
  /\ elements_fetched (fetch_all k a) = Z.of_nat <$> seq k (length a).
Proof.
  induction a as [|j a IH]; intros k; [repeat split|].
  destruct (IH (S k)) as (Hacq & Hrel & Hdel & Hidx).
  change (fetch_all k (j :: a)) with (fetch_events k j ++ fetch_all (S k) a).
  unfold chars_acquired, chars_released, refs_deleted, elements_fetched in *.
  rewrite !omap_app, Hacq, Hrel, Hdel, Hidx.
  destruct j; repeat split.
Qed.

Lemma unfetch_resources (a : list jstring) :
  chars_acquired (a ≫= unfetch_events) = []
  /\ chars_released (a ≫= unfetch_events)
     = (fun str => (Some str, JvmChars str)) <$> omap id a
  /\ refs_deleted (a ≫= unfetch_events) = JString <$> omap id a
  /\ elements_fetched (a ≫= unfetch_events) = [].
Proof.
  induction a as [|j a IH]; [repeat split|].
  destruct IH as (Hacq & Hrel & Hdel & Hidx).
  change ((j :: a) ≫= unfetch_events)
    with (unfetch_events j ++ (a ≫= unfetch_events)).
  unfold chars_acquired, chars_released, refs_deleted, elements_fetched in *.
  rewrite !omap_app, Hacq, Hrel, Hdel, Hidx.
  destruct j; repeat split.
Qed.

(** X2: [retainNetworkInstance] fetches the elements 0, 1, ..., n-1 of the
    array in order; it acquires the characters of exactly the non-null
    names before its one library call and gives each back after it, in
    the same order; and it deletes the local reference of exactly the
    non-null elements.  Null elements cost no JNI call besides the
    fetch. *)
Theorem retainNetworkInstance_balances_jni (names : jobjectArray string) s :
  exists r s' t,
    retainNetworkInstance names s = Done (r, s', t)
    /\ lends_around_call (omap id (default [] names)) t
    /\ refs_deleted t = JString <$> omap id (default [] names)
    /\ elements_fetched t = Z.of_nat <$> seq 0 (length (default [] names)).
Proof.
  pose proof (retainNetworkInstance_run names s) as Hrun.
  destruct (retain_arguments names) as [ptr count] eqn:Hargs.
  eexists _, _, _. split; [exact Hrun|].
  destruct names as [a|].
  - change (default [] (Some a)) with a.
    destruct (fetch_all_resources a 0) as (Hacq1 & Hrel1 & Hdel1 & Hidx1).
    destruct (unfetch_resources a) as (Hacq2 & Hrel2 & Hdel2 & Hidx2).
    split; [|split].
    + exists (Jni J_GetArrayLength :: fetch_all 0 a),
        (C_retain_network_instance (retain_arguments (Some a)).1
                                   (retain_arguments (Some a)).2),
        (a ≫= unfetch_events).
      split; [reflexivity|].
      split; [exact Hacq1|]. split; [exact Hrel1|].
      split; [apply (lib_calls_fetch_all a 0)|].
      split; [exact Hacq2|]. split; [exact Hrel2|apply lib_calls_unfetch].
    + unfold retain_events.
      change (refs_deleted (Jni J_GetArrayLength :: ?t)) with (refs_deleted t).
      unfold refs_deleted in *. rewrite omap_app, Hdel1. exact Hdel2.
    + unfold retain_events.
      change (elements_fetched (Jni J_GetArrayLength :: ?t)) with (elements_fetched t).
      unfold elements_fetched in *. rewrite omap_app, Hidx1.
      change (omap ?f (Lib ?c :: ?t')) with (omap f t').
      rewrite Hidx2, app_nil_r. reflexivity.
  - split; [|split; reflexivity].
    exists [], (C_retain_network_instance None 0), []. repeat split.
Qed.

(** The local references one round of the copy loop creates. *)
Lemma record_events_refs cls i r :
  refs_created (record_events cls i r)
  = (JString <$> (c_chars <$> owned r)) ++ [JNetworkInfo (info_of r)]
  /\ refs_deleted (record_events cls i r) = refs_created (record_events cls i r).
Proof. destruct r as [[kp|] [vp|]]; split; reflexivity. Qed.

Lemma copy_events_refs cls rs : forall k,
  refs_created (copy_events cls k rs)
  = rs ≫= (fun r => (JString <$> (c_chars <$> owned r)) ++ [JNetworkInfo (info_of r)])
  /\ refs_deleted (copy_events cls k rs) = refs_created (copy_events cls k rs).
Proof.
  induction rs as [|r rs IH]; intros k; [split; reflexivity|].
  destruct (IH (S k)) as [Hcre Hdel].
  destruct (record_events_refs cls (Z.of_nat k) r) as [Hcre1 Hdel1].
  change (copy_events cls k (r :: rs))
    with (record_events cls (Z.of_nat k) r ++ copy_events cls (S k) rs).
  unfold refs_created, refs_deleted in *.
  rewrite !omap_app, Hdel, Hdel1, Hcre, Hcre1. split; reflexivity.
Qed.

(** X3: whenever [getNetworkInfos] returns, the local references it
    deleted are exactly the ones it created with [NewStringUTF] and
    [NewObject], in the order of creation: per record copied out, one for
    each non-null key and value and one for the [NetworkInfo].  So the
    copy loop leaves no local reference behind, however many records it
    copies. *)
Theorem getNetworkInfos_deletes_its_local_refs maxLen s r s' t :
  getNetworkInfos maxLen s = Done (r, s', t) ->
  refs_deleted t = refs_created t
  /\ refs_created t
     = copied_out maxLen s
       ≫= (fun rec => (JString <$> (c_chars <$> owned rec))
                       ++ [JNetworkInfo (info_of rec)]).
Proof.
  intros Hdone.
  destruct (getNetworkInfos_done _ _ _ _ _ Hdone) as (_ & _ & [[-> ->]| ->]).
  - split; reflexivity.
  - destruct (copy_events_refs NetworkInfo_class (copied_out maxLen s) 0)
      as [Hcre Hdel].
    unfold refs_created, refs_deleted in *.
    rewrite !omap_app, Hdel, Hcre. split; reflexivity.
Qed.

Lemma freed_after_copy_app t1 : forall seen t2,
  freed_after_copy seen t1 ->
  (forall seen', freed_after_copy seen' t2) ->
  freed_after_copy seen (t1 ++ t2).
Proof.
  induction t1 as [|e t1 IH]; intros seen t2 H1 H2; [apply H2|].
  destruct H1 as [He H1]. split; [exact He|].
  apply IH; [exact H1|exact H2].
Qed.

Lemma freed_after_copy_record cls i r seen :
  freed_after_copy seen (record_events cls i r).
Proof.
  destruct r as [[kp|] [vp|]];
    cbn [record_events owned key value option_list fmap list_fmap app
         freed_after_copy copied_by];
    repeat (split; try exact I);
    eexists; (split; [reflexivity|]); cbn [copied_by];
    rewrite ?elem_of_cons; auto.
Qed.

Lemma freed_after_copy_events cls rs : forall k seen,
  freed_after_copy seen (copy_events cls k rs).
Proof.
  induction rs as [|r rs IH]; intros k seen; [exact I|].
  change (copy_events cls k (r :: rs))
    with (record_events cls (Z.of_nat k) r ++ copy_events cls (S k) rs).
  apply freed_after_copy_app; [apply freed_after_copy_record|].
  intros seen'. apply IH.
Qed.

(** X4: strings are copied before they are given back.  In every finished
    call of [getNetworkInfos], and in [getLastError], each pointer passed
    to [free_string] is non-null and was read by [NewStringUTF] earlier in
    the same call. *)
Theorem strings_copied_before_freed maxLen s :
  (forall r s' t,
      getNetworkInfos maxLen s = Done (r, s', t) -> freed_after_copy [] t)
  /\ (exists r s' t, getLastError s = Done (r, s', t) /\ freed_after_copy [] t).
Proof.
  split.
  - intros r s' t Hdone.
    destruct (getNetworkInfos_done _ _ _ _ _ Hdone) as (_ & _ & [[-> _]| ->]).
    + cbn [empty_reply freed_after_copy copied_by]. repeat split.
    + apply freed_after_copy_app;
        [cbn [copy_prelude freed_after_copy copied_by]; repeat split|].
      intros seen'. apply freed_after_copy_events.
  - rewrite getLastError_run.
    destruct (get_error_msg None s).1 as [p|]; eexists _, _, _;
      (split; [reflexivity|]); cbn [freed_after_copy copied_by]; repeat split.
    exists p. split; [reflexivity|]. apply elem_of_cons. left. reflexivity.
Qed.

(** X5: [getNetworkInfos] runs into undefined behaviour exactly when the
    collector returns a count greater than the length of the buffer it
    was given. *)
Theorem getNetworkInfos_undefined_iff maxLen s :
  getNetworkInfos maxLen s = Undefined <-> cap maxLen < collected_count maxLen s.
Proof.
  rewrite getNetworkInfos_run. unfold getNetworkInfos_outcome.
  pose proof (cap_nonneg maxLen).
  destruct (Z.leb_spec (collected_count maxLen s) 0);
    [split; [discriminate|lia]|].
  destruct (Z.leb_spec (collected_count maxLen s) (cap maxLen));
    [split; [discriminate|lia]|].
  split; [intros _; assumption|reflexivity].
Qed.

(** The capacity enters [getNetworkInfos] only through [cap]. *)
Lemma getNetworkInfos_cap_eq (a b : Z) s :
  cap a = cap b -> getNetworkInfos a s = getNetworkInfos b s.
Proof.
  intros Hcap.
  unfold Java_org_fcl_enchantnetcore_easytier_NativeBridge_getNetworkInfos.
  rewrite Hcap. reflexivity.
Qed.

(** X6: what [getNetworkInfos] hands to the collector, for a [jint]
    capacity.  In every finished call the first library call is
    [collect_network_infos] with [max_length] equal to [maxLen] when
    [maxLen] is positive and to 256 otherwise (negative capacities
    included): the [(size_t)] cast never wraps, and the length is at least
    1 and below 2^31.  A call with a non-positive capacity is the call
    with capacity 256. *)
Theorem getNetworkInfos_collector_buffer maxLen s r s' t :
  jint_range maxLen ->
  getNetworkInfos maxLen s = Done (r, s', t) ->
  exists n,
    head (lib_calls t) = Some (C_collect_network_infos n)
    /\ n = (if 0 <? maxLen then maxLen else 256)
    /\ 1 <= n < 2 ^ 31
    /\ getNetworkInfos n s = Done (r, s', t).
Proof.
  intros [Hlo Hhi] Hdone.
  assert (Hcap : cap maxLen = (if 0 <? maxLen then maxLen else 256)).
  { destruct (Z.ltb_spec 0 maxLen); [apply cap_jint|apply cap_default]; lia. }
  exists (cap maxLen). split.
  - destruct (getNetworkInfos_done _ _ _ _ _ Hdone) as (_ & _ & [[-> _]| ->]);
      reflexivity.
  - split; [exact Hcap|]. split.
    + rewrite Hcap. destruct (Z.ltb_spec 0 maxLen); lia.
    + rewrite <- Hdone. apply getNetworkInfos_cap_eq.
      rewrite Hcap. destruct (Z.ltb_spec 0 maxLen) as [Hpos|Hneg].
      * apply cap_jint. lia.
      * reflexivity.
Qed.

Lemma lib_calls_copy_events cls rs : forall k,
  lib_calls (copy_events cls k rs)
  = (fun p => C_free_string (Some p)) <$> (rs ≫= owned).
Proof.
  induction rs as [|r rs IH]; intros k; [reflexivity|].
  change (copy_events cls k (r :: rs))
    with (record_events cls (Z.of_nat k) r ++ copy_events cls (S k) rs).
  change ((r :: rs) ≫= owned) with (owned r ++ (rs ≫= owned)).
  unfold lib_calls in *. rewrite omap_app, IH, fmap_app. f_equal.
  destruct r as [[kp|] [vp|]]; reflexivity.
Qed.

(** X7: the library calls of a finished [getNetworkInfos] are one
    [collect_network_infos], first, with the length of the buffer, then
    one [free_string] per non-null pointer of the records copied out, key
    before value, record by record, and no other; the library state it
    leaves is the collector's after those [free_string] calls.  When the
    collector reports a non-positive count nothing is given back,
    whatever it stored in the buffer. *)
Theorem getNetworkInfos_library_footprint maxLen s r s' t :
  getNetworkInfos maxLen s = Done (r, s', t) ->
  lib_calls t
  = C_collect_network_infos (Z.of_nat (length (collected_buf maxLen s)))
    :: ((fun p => C_free_string (Some p)) <$> (copied_out maxLen s ≫= owned))
  /\ s' = release_all (copied_out maxLen s ≫= owned) (collected_state maxLen s)
  /\ (collected_count maxLen s <= 0 ->
      lib_calls t = [C_collect_network_infos (cap maxLen)]
      /\ s' = collected_state maxLen s).
Proof.
  intros Hdone. rewrite length_collected_buf.
  destruct (getNetworkInfos_done _ _ _ _ _ Hdone) as (_ & -> & Ht).
  assert (Hcalls : lib_calls t
            = C_collect_network_infos (cap maxLen)
              :: ((fun p => C_free_string (Some p)) <$> (copied_out maxLen s ≫= owned))).
  { destruct Ht as [[-> ->]| ->]; [reflexivity|].
    unfold lib_calls. rewrite omap_app.
    fold (lib_calls (copy_events NetworkInfo_class 0 (copied_out maxLen s))).
    rewrite lib_calls_copy_events. reflexivity. }
  split; [exact Hcalls|]. split; [reflexivity|].
  intros Hle. rewrite Hcalls. unfold copied_out.
  replace (Z.to_nat (collected_count maxLen s)) with 0%nat by lia.
  split; reflexivity.
Qed.

(** The status call [op] followed by [getLastError]. *)
Lemma then_getLastError (op : M (L := L) Z) s code s1 t1 :
  op s = Done (code, s1, t1) ->
  exists s2 t2,
    (let* c := op in let* msg := getLastError in ret (c, msg)) s
    = Done ((code, c_chars <$> (get_error_msg None s1).1), s2, t1 ++ t2)
    /\ head (lib_calls t2) = Some C_get_error_msg.
Proof.
  intros Hop. rewrite (bind_done _ _ _ _ _ _ Hop).
  unfold bind at 1. rewrite getLastError_run.
  destruct (get_error_msg None s1).1 as [p|]; cbn [ret];
    eexists _, _; split; reflexivity.
Qed.

(** X8: the wrapper keeps no state of its own between entry points.  A
    status call followed by [getLastError] returns the call's status code
    together with the error string the library holds in the state that
    very call left, and the library sees the status call immediately
    followed by [get_error_msg]. *)
Theorem last_error_follows_status_call
    (cfg instName : jstring) (fd : Z) (names : jobjectArray string) s :
  (exists s' t,
      (let* c := parseConfig cfg in let* msg := getLastError in ret (c, msg)) s
      = Done (((parse_config (utf_chars cfg) s).1,
               c_chars <$> (get_error_msg None (parse_config (utf_chars cfg) s).2).1),
              s', t)
      /\ take 2 (lib_calls t) = [C_parse_config (utf_chars cfg); C_get_error_msg])
  /\ (exists s' t,
        (let* c := runNetworkInstance cfg in let* msg := getLastError in ret (c, msg)) s
        = Done (((run_network_instance (utf_chars cfg) s).1,
                 c_chars
                   <$> (get_error_msg None (run_network_instance (utf_chars cfg) s).2).1),
                s', t)
        /\ take 2 (lib_calls t) = [C_run_network_instance (utf_chars cfg); C_get_error_msg])
  /\ (exists s' t,
        (let* c := setTunFd instName fd in let* msg := getLastError in ret (c, msg)) s
        = Done (((set_tun_fd (utf_chars instName) fd s).1,
                 c_chars
                   <$> (get_error_msg None (set_tun_fd (utf_chars instName) fd s).2).1),
                s', t)
        /\ take 2 (lib_calls t)
           = [C_set_tun_fd (utf_chars instName) fd; C_get_error_msg])
  /\ (exists s' t ptr count,
        retain_arguments names = (ptr, count)
        /\ (let* c := retainNetworkInstance names in
            let* msg := getLastError in ret (c, msg)) s
           = Done (((retain_network_instance ptr count s).1,
                    c_chars
                      <$> (get_error_msg None (retain_network_instance ptr count s).2).1),
                   s', t)
        /\ take 2 (lib_calls t)
           = [C_retain_network_instance ptr count; C_get_error_msg]).
Proof.
  split; [|split; [|split]]; cycle 3.
  { pose proof (retainNetworkInstance_run names s) as Hop.
    pose proof (lib_calls_retain names) as Hcalls.
    destruct (retain_arguments names) as [ptr count].
    destruct (then_getLastError _ _ _ _ _ Hop) as (s2 & t2 & Hrun & Hhead).
    eexists _, _, ptr, count. split; [reflexivity|]. split; [exact Hrun|].
    unfold lib_calls in *. rewrite omap_app, Hcalls.
    destruct (omap _ t2); [discriminate|]. injection Hhead as ->. reflexivity. }
  - destruct (then_getLastError _ _ _ _ _ (parseConfig_run cfg s))
      as (s2 & t2 & Hrun & Hhead).
    eexists _, _. split; [exact Hrun|].
    unfold lib_calls in *. rewrite omap_app.
    fold (lib_calls (lend_events cfg (C_parse_config (utf_chars cfg)))).
    rewrite lib_calls_lend.
    destruct (omap _ t2); [discriminate|]. injection Hhead as ->. reflexivity.
  - destruct (then_getLastError _ _ _ _ _ (runNetworkInstance_run cfg s))
      as (s2 & t2 & Hrun & Hhead).
    eexists _, _. split; [exact Hrun|].
    unfold lib_calls in *. rewrite omap_app.
    fold (lib_calls (lend_events cfg (C_run_network_instance (utf_chars cfg)))).
    rewrite lib_calls_lend.
    destruct (omap _ t2); [discriminate|]. injection Hhead as ->. reflexivity.
  - destruct (then_getLastError _ _ _ _ _ (setTunFd_run instName fd s))
      as (s2 & t2 & Hrun & Hhead).
    eexists _, _. split; [exact Hrun|].
    unfold lib_calls in *. rewrite omap_app.
    fold (lib_calls (lend_events instName (C_set_tun_fd (utf_chars instName) fd))).
    rewrite lib_calls_lend.
    destruct (omap _ t2); [discriminate|]. injection Hhead as ->. reflexivity.
Qed.

End Resources.

(** ** The further properties at sample inputs *)

Lemma getNetworkInfos_deletes_its_local_refs_witness :
  exists r s' t,
    getNetworkInfos 2 one_instance = Done (r, s', t)
    /\ refs_deleted t = refs_created t
    /\ refs_created t
       = [JString "status"; JString "running";
          JNetworkInfo {| info_key := Some "status"; info_value := Some "running" |};
          JString "peers";
          JNetworkInfo {| info_key := Some "peers"; info_value := None |}].
Proof.
  assert (exists r s' t, getNetworkInfos 2 one_instance = Done (r, s', t))
    as (r & s' & t & Hrun) by (eexists _, _, _; vm_compute; reflexivity).
  destruct (getNetworkInfos_deletes_its_local_refs 2 one_instance r s' t Hrun)
    as [Hbalance Hcreated].
  exists r, s', t. split; [exact Hrun|]. split; [exact Hbalance|].
  rewrite Hcreated. vm_compute. reflexivity.
Defined.

(** A negative capacity gets the default buffer. *)
Lemma getNetworkInfos_collector_buffer_witness :
  exists r s' t,
    getNetworkInfos (-5) one_instance = Done (r, s', t)
    /\ head (lib_calls t) = Some (C_collect_network_infos 256)
    /\ getNetworkInfos 256 one_instance = Done (r, s', t).
Proof.
  assert (exists r s' t, getNetworkInfos (-5) one_instance = Done (r, s', t))
    as (r & s' & t & Hrun) by (eexists _, _, _; vm_compute; reflexivity).
  destruct (getNetworkInfos_collector_buffer (-5) one_instance r s' t)
    as (n & Hhead & Hn & _ & Hsame).
  - vm_compute. split; [discriminate|reflexivity].
  - exact Hrun.
  - simpl in Hn. subst n. exists r, s', t.
    split; [exact Hrun|]. split; [exact Hhead|exact Hsame].
Defined.

Lemma getNetworkInfos_library_footprint_witness :
  exists r s' t,
    getNetworkInfos 2 one_instance = Done (r, s', t)
    /\ lib_calls t
       = [C_collect_network_infos 2;
          C_free_string (Some (LibString 1 "status"));
          C_free_string (Some (LibString 2 "running"));
          C_free_string (Some (LibString 3 "peers"))]
    /\ given_back s'
       = [Some (LibString 1 "status"); Some (LibString 2 "running");
          Some (LibString 3 "peers")].
Proof.
  assert (exists r s' t, getNetworkInfos 2 one_instance = Done (r, s', t))
    as (r & s' & t & Hrun) by (eexists _, _, _; vm_compute; reflexivity).
  destruct (getNetworkInfos_library_footprint 2 one_instance r s' t Hrun)
    as (Hcalls & Hstate & _).
  exists r, s', t. split; [exact Hrun|].
  split; [rewrite Hcalls|rewrite Hstate]; vm_compute; reflexivity.
Defined.
